(** * Unit-root test application ([testt.py]): a shallow embedding

    The script is a Streamlit page: it reads a spreadsheet, offers the
    numeric columns, drops the missing values of the chosen one and runs up
    to four external statistical routines on it, rendering one table and one
    verdict per routine.

    The embedding keeps the script's shape.  Every [st.*] call is an [event]
    appended to the page; a computation is a pair of the events it has
    emitted and either a value or the exception that stopped it, so that
    [try]/[except] and an exception that escapes [main] are both visible.
    The spreadsheet reader and the four statistical routines are external:
    they are the fields of an environment record, each a function that
    either returns or raises.  Python floats are IEEE binary64 numbers and
    are modelled by Rocq's primitive floats, NaN included. *)

From Stdlib Require Import List String Ascii ZArith Bool Floats.
Import ListNotations.

#[local] Set Warnings "-inexact-float".

#[local] Open Scope string_scope.
#[local] Open Scope list_scope.

(** ** Values, columns and data frames *)

(** A spreadsheet cell as pandas holds it. *)
Inductive cell : Type :=
| CInt (z : Z)
| CFloat (f : float)
| CStr (s : string)
| CBool (b : bool)
| CNone.

(** The column types [pd.read_excel] infers. *)
Inductive dtype : Type :=
| int64
| float64
| bool_
| datetime64
| object_.

(** [issubclass(dtype.type, np.number)]: what
    [select_dtypes(include=[np.number])] keeps. *)
Definition is_number (d : dtype) : bool :=
  match d with
  | int64 | float64 => true
  | bool_ | datetime64 | object_ => false
  end.

Record column : Type := mkColumn {
  col_name : string;
  col_dtype : dtype;
  col_values : list cell
}.

(** A data frame is the list of its columns, in order. *)
Definition DataFrame : Type := list column.

(** [pd.isna] on one cell: NaN and [None] are missing. *)
Definition isna (c : cell) : bool :=
  match c with
  | CFloat f => PrimFloat.is_nan f
  | CNone => true
  | CInt _ | CStr _ | CBool _ => false
  end.

(** [Series.dropna()]: the entries that are not missing, scanned front to
    back. *)
Fixpoint dropna (xs : list cell) : list cell :=
  match xs with
  | [] => []
  | x :: rest => if isna x then dropna rest else x :: dropna rest
  end.

(** [df.head()]: the first five rows of every column. *)
Definition head (df : DataFrame) : DataFrame :=
  map (fun c => mkColumn (col_name c) (col_dtype c) (firstn 5 (col_values c))) df.

(** [df.select_dtypes(include=[np.number]).columns.tolist()]. *)
Definition numeric_columns (df : DataFrame) : list string :=
  map col_name (filter (fun c => is_number (col_dtype c)) df).

(** [df[name]]: the column of that name, when there is one. *)
Fixpoint getitem (df : DataFrame) (name : string) : option column :=
  match df with
  | [] => None
  | c :: rest => if String.eqb (col_name c) name then Some c else getitem rest name
  end.

(** [df[name] = value] on a one-row frame: an existing column is overwritten
    in place, a new one is appended on the right. *)
Fixpoint setitem (df : DataFrame) (name : string) (value : float) : DataFrame :=
  match df with
  | [] => [mkColumn name float64 [CFloat value]]
  | c :: rest =>
      if String.eqb (col_name c) name
      then mkColumn name float64 [CFloat value] :: rest
      else c :: setitem rest name value
  end.

(** One-row columns as [pd.DataFrame({...: [x]})] builds them. *)
Definition float_col (name : string) (x : float) : column :=
  mkColumn name float64 [CFloat x].

Definition int_col (name : string) (n : Z) : column :=
  mkColumn name int64 [CInt n].

(** ** The page and the computations that write on it *)

Inductive event : Type :=
| st_title (s : string)
| st_write (s : string)
| st_file_uploader (label : string) (types : list string)
| st_dataframe (df : DataFrame)
| st_selectbox (label : string) (options : list string)
| st_pyplot (title : string) (ys : list cell)
| st_checkbox (label : string) (value : bool)
| st_button (label : string)
| st_success (s : string)
| st_warning (s : string)
| st_error (s : string)
| st_info (s : string)
| st_text (s : string).

(** A raised Python exception: its class and what [str(e)] gives.  The
    libraries raise subclasses of [Exception], the ones [except Exception]
    catches. *)
Record exn : Type := mkExn {
  exn_class : string;
  exn_str : string
}.

Inductive result (A : Type) : Type :=
| Ok (a : A)
| Raise (e : exn).
Arguments Ok {A} a.
Arguments Raise {A} e.

(** What a piece of the script does: the events it emitted, then how it
    ended. *)
Definition M (A : Type) : Type := list event * result A.

Definition ret {A} (a : A) : M A := ([], Ok a).

Definition bind {A B} (m : M A) (k : A -> M B) : M B :=
  match m with
  | (w, Ok a) => let (w', r) := k a in (w ++ w', r)
  | (w, Raise e) => (w, Raise e)
  end.

Definition emit (ev : event) : M unit := ([ev], Ok tt).

(** A call into an external routine. *)
Definition call {A} (r : exn + A) : M A :=
  match r with
  | inr a => ([], Ok a)
  | inl e => ([], Raise e)
  end.

(** [try: body  except Exception as e: handler e]. *)
Definition try_except {A} (body : M A) (handler : exn -> M A) : M A :=
  match body with
  | (w, Ok a) => (w, Ok a)
  | (w, Raise e) => let (w', r) := handler e in (w ++ w', r)
  end.

Definition events {A} (m : M A) : list event := fst m.
Definition outcome {A} (m : M A) : result A := snd m.

Declare Scope script_scope.
Delimit Scope script_scope with script.
Notation "x <- m ;; k" := (bind m (fun x => k))
  (at level 61, m at next level, right associativity) : script_scope.
Notation "m ;; k" := (bind m (fun _ => k))
  (at level 61, right associativity) : script_scope.
#[local] Open Scope script_scope.

(** ** The external routines *)

(** A dictionary of critical values, in insertion order. *)
Definition crit_dict : Type := list (string * float).

(** The tuple [adfuller] returns: positions 0 to 5. *)
Record adf_result : Type := mkAdf {
  adf_stat : float;
  adf_pvalue : float;
  adf_usedlag : Z;
  adf_nobs : Z;
  adf_crit : crit_dict;
  adf_icbest : float
}.

(** The tuple [kpss] returns: positions 0 to 3. *)
Record kpss_result : Type := mkKpss {
  kpss_stat : float;
  kpss_pvalue : float;
  kpss_lags : Z;
  kpss_crit : crit_dict
}.

(** What the script reads off a [PhillipsPerron] object. *)
Record pp_object : Type := mkPP {
  pp_summary : string;
  pp_stat : float;
  pp_pvalue : float;
  pp_lags : Z;
  pp_critical_values : crit_dict
}.

(** The first three positions of the tuple [range_unit_root_test] returns
    with [store=True] (the fourth, the store, is never read). *)
Record rur_result : Type := mkRur {
  rur_stat : float;
  rur_pvalue : float;
  rur_crit : crit_dict
}.

(** The libraries the script calls: each call returns or raises. *)
Record environment : Type := mkEnv {
  read_excel : string -> exn + DataFrame;
  adfuller : list cell -> exn + adf_result;
  kpss : list cell -> exn + kpss_result;
  PhillipsPerron : list cell -> exn + pp_object;
  range_unit_root_test : list cell -> exn + rur_result
}.

(** What the user did on the page. *)
Record session : Type := mkSession {
  uploaded_file : option string;
  selected : nat;
  run_adf : bool;
  run_kpss : bool;
  run_pp : bool;
  run_rur : bool;
  button : bool
}.

(** ** The script's texts *)

Definition nl : string := String (ascii_of_nat 10) EmptyString.
Definition indent4 : string := "    ".
Definition indent16 : string := "                ".

Definition intro_text : string :=
  nl ++ indent4 ++ "This app performs various unit root tests on your time series data."
  ++ nl ++ indent4 ++ "Upload an Excel file, select a variable, and choose which tests to run."
  ++ nl ++ indent4.

(** The hypotheses of ADF, Phillips-Perron and the range test. *)
Definition unit_root_null_text : string :=
  nl ++ indent16 ++ "**Null Hypothesis**: The series has a unit root (non-stationary)  "
  ++ nl ++ indent16 ++ "**Alternative Hypothesis**: The series has no unit root (stationary)"
  ++ nl ++ indent16.

(** The hypotheses of KPSS. *)
Definition stationary_null_text : string :=
  nl ++ indent16 ++ "**Null Hypothesis**: The series is stationary  "
  ++ nl ++ indent16 ++ "**Alternative Hypothesis**: The series has a unit root (non-stationary)"
  ++ nl ++ indent16.

Definition stationary_reject : string :=
  "The series is stationary (reject the null hypothesis).".
Definition nonstationary_fail : string :=
  "The series is non-stationary (fail to reject the null hypothesis).".
Definition nonstationary_reject : string :=
  "The series is non-stationary (reject the null hypothesis).".
Definition stationary_fail : string :=
  "The series is stationary (fail to reject the null hypothesis).".

Definition arch_hint : string :=
  "Note: This test requires the 'arch' library. Install it using pip install arch".

(** The significance threshold: the binary64 number nearest to 0.05. *)
Definition alpha : float := 0.05%float.

(** ** The four test sections *)

(** The column titles [f'Critical Value ({key})'] and
    [f'Critical Value ({key}%)']. *)
Definition title (key : string) : string := "Critical Value (" ++ key ++ ")".
Definition title_pct (key : string) : string := "Critical Value (" ++ key ++ "%)".

(** A loop over the entries of a dictionary, in its order, that sets the
    column titled [f key] to the entry's value. *)
Definition loop (f : string -> string) (df : DataFrame) (d : crit_dict) : DataFrame :=
  fold_left (fun df kv => setitem df (f (fst kv)) (snd kv)) d df.

(** [for key, value in d.items(): df[f'Critical Value ({key})'] = value]. *)
Definition add_critical_values (df : DataFrame) (d : crit_dict) : DataFrame :=
  loop title df d.

(** [for key in d.keys(): df[f'Critical Value ({key}%)'] = d[key]]. *)
Definition add_critical_values_pct (df : DataFrame) (d : crit_dict) : DataFrame :=
  loop title_pct df d.

Definition adf_output (r : adf_result) : DataFrame :=
  add_critical_values
    [ float_col "Statistic" (adf_stat r);
      float_col "p-value" (adf_pvalue r);
      int_col "Lags Used" (adf_usedlag r);
      int_col "Number of Observations" (adf_nobs r) ]
    (adf_crit r).

Definition kpss_output (r : kpss_result) : DataFrame :=
  add_critical_values
    [ float_col "Statistic" (kpss_stat r);
      float_col "p-value" (kpss_pvalue r);
      int_col "Lags Used" (kpss_lags r) ]
    (kpss_crit r).

Definition pp_output (pp : pp_object) : DataFrame :=
  add_critical_values_pct
    [ float_col "Statistic" (pp_stat pp);
      float_col "p-value" (pp_pvalue pp);
      int_col "Lags Used" (pp_lags pp) ]
    (pp_critical_values pp).

Definition rur_output (r : rur_result) : DataFrame :=
  add_critical_values
    [ float_col "Statistic" (rur_stat r);
      float_col "p-value" (rur_pvalue r) ]
    (rur_crit r).

(** Lines 58-82: the ADF section.  The call is not inside a [try]. *)
Definition adf_section (env : environment) (data : list cell) : M unit :=
  emit (st_write "### Augmented Dickey-Fuller Test") ;;
  emit (st_write unit_root_null_text) ;;
  r <- call (adfuller env data) ;;
  emit (st_dataframe (adf_output r)) ;;
  if (adf_pvalue r <=? alpha)%float
  then emit (st_success stationary_reject)
  else emit (st_warning nonstationary_fail).

(** Lines 85-111: the KPSS section. *)
Definition kpss_section (env : environment) (data : list cell) : M unit :=
  emit (st_write "### KPSS Test") ;;
  emit (st_write stationary_null_text) ;;
  try_except
    (r <- call (kpss env data) ;;
     emit (st_dataframe (kpss_output r)) ;;
     if (kpss_pvalue r <=? alpha)%float
     then emit (st_warning nonstationary_reject)
     else emit (st_success stationary_fail))
    (fun e => emit (st_error ("Error in KPSS test: " ++ exn_str e))).

(** Lines 114-151: the Phillips-Perron section. *)
Definition pp_section (env : environment) (data : list cell) : M unit :=
  emit (st_write "### Phillips-Perron Test") ;;
  emit (st_write unit_root_null_text) ;;
  try_except
    (pp <- call (PhillipsPerron env data) ;;
     emit (st_dataframe (pp_output pp)) ;;
     (if (pp_pvalue pp <=? alpha)%float
      then emit (st_success stationary_reject)
      else emit (st_warning nonstationary_fail)) ;;
     emit (st_text "Detailed Phillips-Perron Test Results:") ;;
     emit (st_text (pp_summary pp)))
    (fun e =>
       emit (st_error ("Error in Phillips-Perron test: " ++ exn_str e)) ;;
       emit (st_info arch_hint)).

(** Lines 154-182: the range unit root section. *)
Definition rur_section (env : environment) (data : list cell) : M unit :=
  emit (st_write "### Range Unit Root Test") ;;
  emit (st_write unit_root_null_text) ;;
  try_except
    (r <- call (range_unit_root_test env data) ;;
     emit (st_dataframe (rur_output r)) ;;
     if (rur_pvalue r <=? alpha)%float
     then emit (st_success stationary_reject)
     else emit (st_warning nonstationary_fail))
    (fun e => emit (st_error ("Error in Range Unit Root test: " ++ exn_str e))).

(** Lines 54-182: what pressing "Run Tests" does. *)
Definition run_tests (env : environment) (ui : session) (data : list cell) : M unit :=
  emit (st_write "## Test Results") ;;
  (if run_adf ui then adf_section env data else ret tt) ;;
  (if run_kpss ui then kpss_section env data else ret tt) ;;
  (if run_pp ui then pp_section env data else ret tt) ;;
  (if run_rur ui then rur_section env data else ret tt).

(** What [st.selectbox] returns: the chosen option, the first one unless
    the user picked another. *)
Definition selectbox_value (options : list string) (i : nat) : string :=
  nth i options (hd "" options).

Definition KeyError (name : string) : exn := mkExn "KeyError" name.

(** Lines 10-182. *)
Definition main (env : environment) (ui : session) : M unit :=
  emit (st_title "Time Series Unit Root Tests - Dr. Merwan Roudane") ;;
  emit (st_write intro_text) ;;
  emit (st_file_uploader "Choose an Excel file" ["xlsx"; "xls"]) ;;
  match uploaded_file ui with
  | None => ret tt
  | Some file =>
      df <- call (read_excel env file) ;;
      emit (st_write "### Preview of uploaded data:") ;;
      emit (st_dataframe (head df)) ;;
      match numeric_columns df with
      | [] => emit (st_error "No numeric columns found in the uploaded file.")
      | _ :: _ =>
          emit (st_selectbox "Select a variable for unit root testing:"
                  (numeric_columns df)) ;;
          let selected_column := selectbox_value (numeric_columns df) (selected ui) in
          col <- call (match getitem df selected_column with
                       | Some c => inr c
                       | None => inl (KeyError selected_column)
                       end) ;;
          let data := dropna (col_values col) in
          emit (st_write "### Time Series Plot:") ;;
          emit (st_pyplot ("Time Series: " ++ selected_column) data) ;;
          emit (st_write "### Select Unit Root Tests to Perform:") ;;
          emit (st_checkbox "Augmented Dickey-Fuller (ADF) Test" true) ;;
          emit (st_checkbox "KPSS Test" true) ;;
          emit (st_checkbox "Phillips-Perron (PP) Test" true) ;;
          emit (st_checkbox "Range Unit Root Test" true) ;;
          emit (st_button "Run Tests") ;;
          if button ui then run_tests env ui data else ret tt
      end
  end.

(** Lines 1-7 and 185-186: the imports at the top of the file, then
    [main].  The import of [arch.unitroot] sits there with the others, so a
    missing [arch] library stops the script before [main] starts. *)
Definition arch_missing : exn :=
  mkExn "ModuleNotFoundError" "No module named 'arch'".

Definition script (arch_installed : bool) (env : environment) (ui : session) : M unit :=
  if arch_installed then main env ui else ([], Raise arch_missing).

(** ** Reading the page *)

(** The four test kinds, in the order of the script. *)
Inductive test_kind : Type := ADF | KPSS | PP | RUR.

(** The heading that opens each kind's section. *)
Definition heading (k : test_kind) : string :=
  match k with
  | ADF => "### Augmented Dickey-Fuller Test"
  | KPSS => "### KPSS Test"
  | PP => "### Phillips-Perron Test"
  | RUR => "### Range Unit Root Test"
  end.

Definition enabled (ui : session) (k : test_kind) : bool :=
  match k with
  | ADF => run_adf ui
  | KPSS => run_kpss ui
  | PP => run_pp ui
  | RUR => run_rur ui
  end.

(** The kind whose section an event opens: the event is that kind's
    heading. *)
Definition kind_of (ev : event) : option test_kind :=
  match ev with
  | st_write s =>
      if String.eqb s (heading ADF) then Some ADF
      else if String.eqb s (heading KPSS) then Some KPSS
      else if String.eqb s (heading PP) then Some PP
      else if String.eqb s (heading RUR) then Some RUR
      else None
  | _ => None
  end.

(** The sections a page shows, top to bottom. *)
Fixpoint sections (evs : list event) : list test_kind :=
  match evs with
  | [] => []
  | ev :: rest =>
      match kind_of ev with
      | Some k => k :: sections rest
      | None => sections rest
      end
  end.

(** The enabled kinds in the script's fixed order. *)
Definition enabled_kinds (ui : session) : list test_kind :=
  filter (enabled ui) [ADF; KPSS; PP; RUR].

(** The verdict a message gives: [true] for a success message saying the
    series is stationary, [false] for a warning saying it is not. *)
Definition verdict_of (ev : event) : option bool :=
  match ev with
  | st_success s =>
      if String.prefix "The series is stationary" s then Some true else None
  | st_warning s =>
      if String.prefix "The series is non-stationary" s then Some false else None
  | _ => None
  end.

(** The verdicts of a page, top to bottom. *)
Fixpoint verdicts (evs : list event) : list bool :=
  match evs with
  | [] => []
  | ev :: rest =>
      match verdict_of ev with
      | Some b => b :: verdicts rest
      | None => verdicts rest
      end
  end.

Definition is_hint (ev : event) : bool :=
  match ev with st_info s => String.eqb s arch_hint | _ => false end.

(** The choices each select box of a page offers, top to bottom. *)
Fixpoint selectboxes (evs : list event) : list (list string) :=
  match evs with
  | [] => []
  | st_selectbox _ options :: rest => options :: selectboxes rest
  | _ :: rest => selectboxes rest
  end.

(** The error messages of a page, top to bottom. *)
Fixpoint errors (evs : list event) : list string :=
  match evs with
  | [] => []
  | st_error s :: rest => s :: errors rest
  | _ :: rest => errors rest
  end.

(** The tables a page shows, top to bottom. *)
Fixpoint tables (evs : list event) : list DataFrame :=
  match evs with
  | [] => []
  | st_dataframe df :: rest => df :: tables rest
  | _ :: rest => tables rest
  end.

(** [strip_prefix p s]: what follows [p] in [s], when [s] starts with [p]. *)
Fixpoint strip_prefix (p s : string) : option string :=
  match p, s with
  | EmptyString, _ => Some s
  | String a p', String b s' => if Ascii.eqb a b then strip_prefix p' s' else None
  | String _ _, EmptyString => None
  end.

(** [chop_paren s]: [s] without its last character, when that is [")"]. *)
Fixpoint chop_paren (s : string) : option string :=
  match s with
  | EmptyString => None
  | String c EmptyString => if Ascii.eqb c ")" then Some EmptyString else None
  | String c rest => option_map (String c) (chop_paren rest)
  end.

(** The label a column title [Critical Value (label)] shows. *)
Definition critical_label (title : string) : option string :=
  match strip_prefix "Critical Value (" title with
  | Some rest => chop_paren rest
  | None => None
  end.

(** The critical-value entries a table shows: label and cells, left to
    right. *)
Fixpoint critical_entries (df : DataFrame) : list (string * list cell) :=
  match df with
  | [] => []
  | c :: rest =>
      match critical_label (col_name c) with
      | Some l => (l, col_values c) :: critical_entries rest
      | None => critical_entries rest
      end
  end.

(** A dictionary entry as a one-row table shows it. *)
Definition entry (kv : string * float) : string * list cell :=
  (fst kv, [CFloat (snd kv)]).

(** The same entry with [%] added to its label. *)
Definition entry_pct (kv : string * float) : string * list cell :=
  ((fst kv ++ "%")%string, [CFloat (snd kv)]).

(** [Subseq ys xs]: [ys] is [xs] with some entries left out, the others in
    their order. *)
Inductive Subseq {A : Type} : list A -> list A -> Prop :=
| Subseq_nil : Subseq [] []
| Subseq_skip x ys xs : Subseq ys xs -> Subseq ys (x :: xs)
| Subseq_keep x ys xs : Subseq ys xs -> Subseq (x :: ys) (x :: xs).

(** The verdict line of a test whose null hypothesis is a unit root (ADF,
    Phillips-Perron, range test), and the one of KPSS, as the sections
    choose them. *)
Definition adf_verdict (p : float) : event :=
  if (p <=? alpha)%float then st_success stationary_reject else st_warning nonstationary_fail.

Definition kpss_verdict (p : float) : event :=
  if (p <=? alpha)%float then st_warning nonstationary_reject else st_success stationary_fail.

(** What the three sections written inside a [try] put on the page, each
    when its box is ticked. *)
Definition guarded_part (ui : session) (env : environment) (data : list cell) : list event :=
  (if run_kpss ui then events (kpss_section env data) else []) ++
  (if run_pp ui then events (pp_section env data) else []) ++
  (if run_rur ui then events (rur_section env data) else []).

(** The pieces of the page [main] writes before any test runs: the top of
    the page, the preview of the sheet, the select box, and the plot with
    the four boxes and the button. *)
Definition page_top : list event :=
  [ st_title "Time Series Unit Root Tests - Dr. Merwan Roudane";
    st_write intro_text;
    st_file_uploader "Choose an Excel file" ["xlsx"; "xls"] ].

Definition preview (df : DataFrame) : list event :=
  [ st_write "### Preview of uploaded data:"; st_dataframe (head df) ].

Definition selector (df : DataFrame) : event :=
  st_selectbox "Select a variable for unit root testing:" (numeric_columns df).

Definition controls (selected_column : string) (data : list cell) : list event :=
  [ st_write "### Time Series Plot:";
    st_pyplot ("Time Series: " ++ selected_column) data;
    st_write "### Select Unit Root Tests to Perform:";
    st_checkbox "Augmented Dickey-Fuller (ADF) Test" true;
    st_checkbox "KPSS Test" true;
    st_checkbox "Phillips-Perron (PP) Test" true;
    st_checkbox "Range Unit Root Test" true;
    st_button "Run Tests" ].

(** The column the user chose on a sheet. *)
Definition selected_column (df : DataFrame) (ui : session) : string :=
  selectbox_value (numeric_columns df) (selected ui).

(** ** Sample inputs *)

Definition ValueError (msg : string) : exn := mkExn "ValueError" msg.

Definition levels : crit_dict :=
  [("1%", (-3.5)%float); ("5%", (-2.9)%float); ("10%", (-2.6)%float)].

Definition sample_adf : adf_result :=
  mkAdf (-4.2)%float 0.001%float 1 98 levels 250.5%float.
Definition sample_kpss : kpss_result :=
  mkKpss 0.12%float 0.1%float 4 levels.
(** Levels under bare numbers. *)
Definition bare_levels : crit_dict :=
  [("1", (-3.5)%float); ("5", (-2.9)%float); ("10", (-2.6)%float)].

Definition sample_pp : pp_object :=
  mkPP "Phillips-Perron Test (Z-tau)" (-4.1)%float 0.002%float 12 bare_levels.
Definition sample_rur : rur_result :=
  mkRur 1.1%float 0.04%float levels.

(** A three-column sheet: a text column, a float column with gaps, and a
    float column with nothing in it. *)
Definition sample_sheet : DataFrame :=
  [ mkColumn "city" object_ [CStr "Oran"; CStr "Alger"; CStr "Setif"];
    mkColumn "gdp" float64 [CFloat 1.5%float; CFloat nan; CFloat 2.5%float];
    mkColumn "empty" float64 [CFloat nan; CFloat nan; CFloat nan] ].

(** A sheet with text only. *)
Definition text_sheet : DataFrame :=
  [ mkColumn "city" object_ [CStr "Oran"; CStr "Alger"] ].

Definition too_short : exn := ValueError "sample size is too short".

(** Routines that refuse an empty series, as the real ones do, and return
    the sample results otherwise. *)
Definition sample_env : environment :=
  mkEnv
    (fun _ => inr sample_sheet)
    (fun data => match data with [] => inl too_short | _ => inr sample_adf end)
    (fun data => match data with [] => inl too_short | _ => inr sample_kpss end)
    (fun data => match data with [] => inl too_short | _ => inr sample_pp end)
    (fun data => match data with [] => inl too_short | _ => inr sample_rur end).

(** The same with a KPSS routine whose p-value comes out as NaN. *)
Definition nan_kpss : kpss_result := mkKpss nan nan 0 levels.

Definition nan_env : environment :=
  mkEnv (read_excel sample_env) (adfuller sample_env)
    (fun _ => inr nan_kpss)
    (PhillipsPerron sample_env) (range_unit_root_test sample_env).

(** A series whose squares overflow binary64. *)
Definition huge_series : list cell :=
  [CFloat (-1e200)%float; CFloat 0%float; CFloat 1e200%float].

(** The same with routines that accept any series, the empty one too. *)
Definition lenient_env : environment :=
  mkEnv (read_excel sample_env)
    (fun _ => inr sample_adf) (fun _ => inr sample_kpss)
    (fun _ => inr sample_pp) (fun _ => inr sample_rur).

(** A sheet of text only, behind the same routines. *)
Definition text_env : environment :=
  mkEnv (fun _ => inr text_sheet) (adfuller sample_env) (kpss sample_env)
    (PhillipsPerron sample_env) (range_unit_root_test sample_env).

(** All four boxes ticked and the button pressed, on column number [i] of
    the select box. *)
Definition all_tests (i : nat) : session :=
  mkSession (Some "data.xlsx") i true true true true true.

(** Only the boxes named, the button pressed. *)
Definition only (adf kp pp rur : bool) (i : nat) : session :=
  mkSession (Some "data.xlsx") i adf kp pp rur true.

(** * Properties *)

(** ** Each section, unfolded on the routine's answer *)

Lemma adf_section_eq env data :
  adf_section env data =
  match adfuller env data with
  | inr r =>
      ([st_write (heading ADF); st_write unit_root_null_text;
        st_dataframe (adf_output r); adf_verdict (adf_pvalue r)], Ok tt)
  | inl e => ([st_write (heading ADF); st_write unit_root_null_text], Raise e)
  end.
Proof.
  unfold adf_section, adf_verdict.
  destruct (adfuller env data) as [e | r]; [reflexivity |].
  cbn. destruct (adf_pvalue r <=? alpha)%float; reflexivity.
Qed.

Lemma kpss_section_eq env data :
  kpss_section env data =
  ([st_write (heading KPSS); st_write stationary_null_text] ++
   match kpss env data with
   | inr r => [st_dataframe (kpss_output r); kpss_verdict (kpss_pvalue r)]
   | inl e => [st_error ("Error in KPSS test: " ++ exn_str e)]
   end, Ok tt).
Proof.
  unfold kpss_section, kpss_verdict.
  destruct (kpss env data) as [e | r]; [reflexivity |].
  cbn. destruct (kpss_pvalue r <=? alpha)%float; reflexivity.
Qed.

Lemma pp_section_eq env data :
  pp_section env data =
  ([st_write (heading PP); st_write unit_root_null_text] ++
   match PhillipsPerron env data with
   | inr pp =>
       [st_dataframe (pp_output pp); adf_verdict (pp_pvalue pp);
        st_text "Detailed Phillips-Perron Test Results:"; st_text (pp_summary pp)]
   | inl e =>
       [st_error ("Error in Phillips-Perron test: " ++ exn_str e); st_info arch_hint]
   end, Ok tt).
Proof.
  unfold pp_section, adf_verdict.
  destruct (PhillipsPerron env data) as [e | pp]; [reflexivity |].
  cbn. destruct (pp_pvalue pp <=? alpha)%float; reflexivity.
Qed.

Lemma rur_section_eq env data :
  rur_section env data =
  ([st_write (heading RUR); st_write unit_root_null_text] ++
   match range_unit_root_test env data with
   | inr r => [st_dataframe (rur_output r); adf_verdict (rur_pvalue r)]
   | inl e => [st_error ("Error in Range Unit Root test: " ++ exn_str e)]
   end, Ok tt).
Proof.
  unfold rur_section, adf_verdict.
  destruct (range_unit_root_test env data) as [e | r]; [reflexivity |].
  cbn. destruct (rur_pvalue r <=? alpha)%float; reflexivity.
Qed.

(** The three sections written inside a [try] always run to their end. *)
Lemma guarded_sections_return env data :
  outcome (kpss_section env data) = Ok tt /\
  outcome (pp_section env data) = Ok tt /\
  outcome (rur_section env data) = Ok tt.
Proof.
  rewrite kpss_section_eq, pp_section_eq, rur_section_eq. repeat split.
Qed.

(** "Run Tests", unfolded on what the ADF section does. *)
Lemma run_tests_eq env ui data :
  run_tests env ui data =
  match (if run_adf ui then adf_section env data else ret tt) with
  | (w, Ok _) => (st_write "## Test Results" :: w ++ guarded_part ui env data, Ok tt)
  | (w, Raise e) => (st_write "## Test Results" :: w, Raise e)
  end.
Proof.
  unfold run_tests, guarded_part.
  rewrite kpss_section_eq, pp_section_eq, rur_section_eq.
  destruct (if run_adf ui then adf_section env data else ret tt) as [w [[] | e]];
    [| reflexivity].
  destruct (run_kpss ui), (run_pp ui), (run_rur ui); cbn;
    rewrite ?app_nil_r, <- ?app_assoc; reflexivity.
Qed.

(** ** Reading a page that is written in pieces *)

Lemma sections_app a b : sections (a ++ b) = sections a ++ sections b.
Proof.
  induction a as [| ev a IH]; [reflexivity |].
  simpl. destruct (kind_of ev); simpl; now rewrite IH.
Qed.

Lemma tables_app a b : tables (a ++ b) = tables a ++ tables b.
Proof.
  induction a as [| ev a IH]; [reflexivity |].
  destruct ev; simpl; now rewrite IH.
Qed.

Lemma selectboxes_app a b : selectboxes (a ++ b) = selectboxes a ++ selectboxes b.
Proof.
  induction a as [| ev a IH]; [reflexivity |].
  destruct ev; simpl; now rewrite IH.
Qed.

Lemma errors_app a b : errors (a ++ b) = errors a ++ errors b.
Proof.
  induction a as [| ev a IH]; [reflexivity |].
  destruct ev; simpl; now rewrite IH.
Qed.

(** Unfolds the verdict of a section, whatever the p-value. *)
Ltac split_verdicts :=
  unfold adf_verdict, kpss_verdict;
  repeat match goal with
         | |- context [PrimFloat.leb ?p alpha] => destruct (PrimFloat.leb p alpha)
         end.

(** Each section opens with its own heading and shows no other. *)
Lemma sections_adf env data : sections (events (adf_section env data)) = [ADF].
Proof.
  rewrite adf_section_eq. destruct (adfuller env data); [reflexivity |].
  split_verdicts; reflexivity.
Qed.

Lemma sections_kpss env data : sections (events (kpss_section env data)) = [KPSS].
Proof.
  rewrite kpss_section_eq. destruct (kpss env data); [reflexivity |].
  split_verdicts; reflexivity.
Qed.

Lemma sections_pp env data : sections (events (pp_section env data)) = [PP].
Proof.
  rewrite pp_section_eq. destruct (PhillipsPerron env data); [reflexivity |].
  split_verdicts; reflexivity.
Qed.

Lemma sections_rur env data : sections (events (rur_section env data)) = [RUR].
Proof.
  rewrite rur_section_eq. destruct (range_unit_root_test env data); [reflexivity |].
  split_verdicts; reflexivity.
Qed.

Lemma sections_guarded ui env data :
  sections (guarded_part ui env data) = filter (enabled ui) [KPSS; PP; RUR].
Proof.
  unfold guarded_part. rewrite !sections_app.
  cbn [filter enabled].
  destruct (run_kpss ui), (run_pp ui), (run_rur ui);
    rewrite ?sections_kpss, ?sections_pp, ?sections_rur; reflexivity.
Qed.

(** No section offers a select box. *)
Lemma selectboxes_run_tests env ui data :
  selectboxes (events (run_tests env ui data)) = [].
Proof.
  rewrite run_tests_eq.
  assert (G : selectboxes (guarded_part ui env data) = []).
  { unfold guarded_part. rewrite !selectboxes_app.
    rewrite kpss_section_eq, pp_section_eq, rur_section_eq.
    destruct (run_kpss ui), (run_pp ui), (run_rur ui),
      (kpss env data), (PhillipsPerron env data), (range_unit_root_test env data);
      split_verdicts; reflexivity. }
  destruct (run_adf ui).
  - rewrite adf_section_eq. destruct (adfuller env data); [reflexivity |].
    cbn [events fst]. change (st_write "## Test Results" :: ?l ++ ?g)
      with ((st_write "## Test Results" :: l) ++ g).
    rewrite selectboxes_app, G. split_verdicts; reflexivity.
  - cbn. exact G.
Qed.

(** When the ADF box is not ticked, or the ADF routine returns, the page
    shows the sections of the ticked boxes, in the script's order, and the
    run ends normally. *)
Lemma sections_when_adf_returns env ui data :
  (run_adf ui = false \/ exists r, adfuller env data = inr r) ->
  outcome (run_tests env ui data) = Ok tt /\
  sections (events (run_tests env ui data)) = enabled_kinds ui.
Proof.
  intros H. rewrite run_tests_eq. unfold enabled_kinds. cbn [filter].
  change (enabled ui ADF) with (run_adf ui).
  destruct (run_adf ui) eqn:A.
  - destruct H as [H | [r H]]; [discriminate |].
    rewrite adf_section_eq, H. split; [reflexivity |].
    cbn [events fst].
    change (st_write "## Test Results" :: ?l ++ ?g)
      with ((st_write "## Test Results" :: l) ++ g).
    rewrite sections_app, sections_guarded.
    split_verdicts; reflexivity.
  - cbn. split; [reflexivity |]. apply sections_guarded.
Qed.

(** ** [main], unfolded on the upload, the sheet and the chosen column *)

Lemma main_eq env ui :
  main env ui =
  match uploaded_file ui with
  | None => (page_top, Ok tt)
  | Some file =>
      match read_excel env file with
      | inl e => (page_top, Raise e)
      | inr df =>
          match numeric_columns df with
          | [] =>
              (page_top ++ preview df ++
               [st_error "No numeric columns found in the uploaded file."], Ok tt)
          | _ :: _ =>
              match getitem df (selected_column df ui) with
              | None =>
                  (page_top ++ preview df ++ [selector df],
                   Raise (KeyError (selected_column df ui)))
              | Some col =>
                  let data := dropna (col_values col) in
                  if button ui
                  then (page_top ++ preview df ++ [selector df] ++
                        controls (selected_column df ui) data ++
                        events (run_tests env ui data),
                        outcome (run_tests env ui data))
                  else (page_top ++ preview df ++ [selector df] ++
                        controls (selected_column df ui) data, Ok tt)
              end
          end
      end
  end.
Proof.
  unfold main, selected_column, selector.
  destruct (uploaded_file ui) as [file |]; [| reflexivity].
  destruct (read_excel env file) as [e | df]; [reflexivity |].
  cbn -[selectbox_value run_tests].
  destruct (numeric_columns df) as [| n ns] eqn:N; [reflexivity |].
  cbn -[selectbox_value run_tests].
  destruct (getitem df (selectbox_value (n :: ns) (selected ui))) as [col |];
    [| reflexivity].
  cbn -[selectbox_value run_tests]. destruct (button ui); [| reflexivity].
  destruct (run_tests env ui (dropna (col_values col))) as [w r]. reflexivity.
Qed.

(** ** A failure of one test and the other tests *)

(** C1, at an input where the script departs from it.  The column chosen
    has no value left after [dropna] and every routine refuses an empty
    series.  With all four boxes ticked the failure of the ADF call is not
    caught: it leaves [main] as an exception, no error message is written
    and the three other sections never start.  With the ADF box unticked
    the same failure of the three other calls is caught each time,
    reported, and the run goes on to the next test. *)
Theorem adf_failure_escapes :
  outcome (main sample_env (all_tests 1)) = Raise too_short /\
  errors (events (main sample_env (all_tests 1))) = [] /\
  sections (events (main sample_env (all_tests 1))) = [ADF] /\
  outcome (main sample_env (only false true true true 1)) = Ok tt /\
  errors (events (main sample_env (only false true true true 1))) =
    [ "Error in KPSS test: sample size is too short";
      "Error in Phillips-Perron test: sample size is too short";
      "Error in Range Unit Root test: sample size is too short" ].
Proof. repeat split; vm_compute; reflexivity. Qed.

(** Whenever the ADF box is ticked and the ADF routine raises, the run
    stops there with that exception, whatever the other boxes say. *)
Lemma adf_failure_propagates env ui data e :
  run_adf ui = true ->
  adfuller env data = inl e ->
  run_tests env ui data =
    ([st_write "## Test Results"; st_write (heading ADF);
      st_write unit_root_null_text], Raise e).
Proof.
  intros A H. now rewrite run_tests_eq, A, adf_section_eq, H.
Qed.

(** ** Which sections a page shows *)

(** C5, at an input where the script departs from it.  The ADF and range
    boxes are ticked, the two others are not, and the ADF routine refuses
    the series: the page shows the ADF heading only, and the section of the
    range test, whose box is ticked, is missing. *)
Theorem ticked_section_missing :
  enabled_kinds (only true false false true 1) = [ADF; RUR] /\
  sections (events (main sample_env (only true false false true 1))) = [ADF] /\
  outcome (main sample_env (only true false false true 1)) = Raise too_short.
Proof. repeat split; vm_compute; reflexivity. Qed.

(** ** A sheet without numeric columns *)

(** C6.  When the uploaded sheet has no numeric column, the page ends with
    the error message right after the preview and [main] returns: no select
    box is offered, no test section appears, and the preview is the only
    table shown. *)
Theorem no_numeric_columns_stops env ui file df :
  uploaded_file ui = Some file ->
  read_excel env file = inr df ->
  numeric_columns df = [] ->
  main env ui =
    (page_top ++ preview df ++
     [st_error "No numeric columns found in the uploaded file."], Ok tt) /\
  selectboxes (events (main env ui)) = [] /\
  sections (events (main env ui)) = [] /\
  tables (events (main env ui)) = [head df] /\
  errors (events (main env ui)) = ["No numeric columns found in the uploaded file."].
Proof.
  intros U R N. rewrite main_eq, U, R, N. repeat split.
Qed.

Lemma no_numeric_columns_stops_witness :
  main text_env (all_tests 0) =
    (page_top ++ preview text_sheet ++
     [st_error "No numeric columns found in the uploaded file."], Ok tt) /\
  selectboxes (events (main text_env (all_tests 0))) = [] /\
  sections (events (main text_env (all_tests 0))) = [] /\
  tables (events (main text_env (all_tests 0))) = [head text_sheet] /\
  errors (events (main text_env (all_tests 0))) =
    ["No numeric columns found in the uploaded file."].
Proof.
  apply (no_numeric_columns_stops text_env (all_tests 0) "data.xlsx" text_sheet);
    reflexivity.
Defined.

(** ** The columns the select box offers *)

Lemma numeric_columns_spec df name :
  In name (numeric_columns df) <->
  exists c, In c df /\ col_name c = name /\ is_number (col_dtype c) = true.
Proof.
  unfold numeric_columns. rewrite in_map_iff. split.
  - intros [c [E I]]. apply filter_In in I. destruct I as [I T]. now exists c.
  - intros [c [I [E T]]]. exists c. split; [exact E |]. apply filter_In. now split.
Qed.

(** The select boxes of a page of [main]: at most one, and it offers the
    numeric columns of the sheet. *)
Lemma selectboxes_main env ui file df :
  uploaded_file ui = Some file ->
  read_excel env file = inr df ->
  selectboxes (events (main env ui)) =
    match numeric_columns df with
    | [] => []
    | _ :: _ => [numeric_columns df]
    end.
Proof.
  intros U R. rewrite main_eq, U, R.
  destruct (numeric_columns df) as [| n ns] eqn:N; [reflexivity |].
  destruct (getitem df (selected_column df ui)) as [col |].
  - cbv zeta. destruct (button ui); cbn [events fst];
      rewrite !selectboxes_app, ?selectboxes_run_tests; unfold selector;
      rewrite N; reflexivity.
  - cbn [events fst]. rewrite !selectboxes_app. unfold selector.
    rewrite N. reflexivity.
Qed.

(** In a sheet without repeated names, a name has one column. *)
Lemma unique_names (df : DataFrame) c c' :
  NoDup (map col_name df) -> In c df -> In c' df ->
  col_name c = col_name c' -> c = c'.
Proof.
  induction df as [| d df IH]; intros D I I' E; [destruct I |].
  inversion D as [| ? ? Hn D']; subst.
  destruct I as [-> | I], I' as [-> | I'].
  - reflexivity.
  - exfalso. apply Hn. rewrite E. now apply in_map.
  - exfalso. apply Hn. rewrite <- E. now apply in_map.
  - now apply IH.
Qed.

(** C7.  Whatever the sheet holds, every choice a select box of the page
    offers is the name of a column of the sheet whose type is numeric; and
    on a sheet with no two columns of one name, as pandas reads them, a
    column whose type is not numeric is not among the choices. *)
Theorem selector_offers_numeric_only env ui file df options :
  uploaded_file ui = Some file ->
  read_excel env file = inr df ->
  In options (selectboxes (events (main env ui))) ->
  (forall name, In name options ->
     exists c, In c df /\ col_name c = name /\ is_number (col_dtype c) = true) /\
  (NoDup (map col_name df) ->
   forall c, In c df -> is_number (col_dtype c) = false -> ~ In (col_name c) options).
Proof.
  intros U R I. rewrite (selectboxes_main env ui file df U R) in I.
  assert (E : options = numeric_columns df).
  { destruct (numeric_columns df); [destruct I |].
    destruct I as [I | []]. now symmetry. }
  subst options. split.
  - intros name. apply numeric_columns_spec.
  - intros D c Ic T Hin. apply numeric_columns_spec in Hin.
    destruct Hin as [c' [Ic' [E T']]].
    rewrite (unique_names df c' c D Ic' Ic E) in T'. congruence.
Qed.

Lemma selector_offers_numeric_only_witness :
  (forall name, In name ["gdp"; "empty"] ->
     exists c, In c sample_sheet /\ col_name c = name /\
               is_number (col_dtype c) = true) /\
  (NoDup (map col_name sample_sheet) ->
   forall c, In c sample_sheet -> is_number (col_dtype c) = false ->
     ~ In (col_name c) ["gdp"; "empty"]).
Proof.
  apply (selector_offers_numeric_only sample_env (all_tests 0) "data.xlsx"
           sample_sheet ["gdp"; "empty"]).
  - reflexivity.
  - reflexivity.
  - left. reflexivity.
Defined.

(** ** The verdict and the p-value *)

(** Comparisons of binary64 numbers, read on their specification. *)
Lemma SFcompare_refl_finite s m e :
  SFcompare (S754_finite s m e) (S754_finite s m e) = Some Eq.
Proof.
  simpl. rewrite Z.compare_refl.
  change (PosDef.Pos.compare_cont Eq m m) with (Pos.compare m m).
  rewrite Pos.compare_refl. destruct s; reflexivity.
Qed.

Lemma is_nan_spec (p : float) :
  PrimFloat.is_nan p = match Prim2SF p with S754_nan => true | _ => false end.
Proof.
  unfold PrimFloat.is_nan. rewrite eqb_spec. unfold SFeqb.
  destruct (Prim2SF p) as [s | s | | s m e].
  - reflexivity.
  - destruct s; reflexivity.
  - reflexivity.
  - rewrite SFcompare_refl_finite. reflexivity.
Qed.

Lemma SFcompare_swap (x y : spec_float) :
  SFcompare y x = option_map CompOpp (SFcompare x y).
Proof.
  destruct x as [s1 | s1 | | s1 m1 e1], y as [s2 | s2 | | s2 m2 e2];
    try reflexivity; try (destruct s1; reflexivity); try (destruct s2; reflexivity);
    try (destruct s1, s2; reflexivity).
  simpl. rewrite (Z.compare_antisym e2 e1).
  change (PosDef.Pos.compare_cont Eq m2 m1) with (Pos.compare m2 m1).
  change (PosDef.Pos.compare_cont Eq m1 m2) with (Pos.compare m1 m2).
  rewrite (Pos.compare_antisym m2 m1).
  destruct s1, s2; simpl; try reflexivity;
    destruct (e2 ?= e1)%Z; simpl; try reflexivity;
    destruct (m2 ?= m1)%positive; reflexivity.
Qed.

(** [p <= c] is false exactly when [c < p] or one of the two is NaN. *)
Lemma not_leb (p c : float) :
  negb (p <=? c)%float =
  ((c <? p)%float || PrimFloat.is_nan p || PrimFloat.is_nan c).
Proof.
  rewrite leb_spec, ltb_spec, !is_nan_spec. unfold SFleb, SFltb.
  rewrite (SFcompare_swap (Prim2SF p) (Prim2SF c)).
  destruct (Prim2SF p) as [s1 | s1 | | s1 m1 e1], (Prim2SF c) as [s2 | s2 | | s2 m2 e2];
    try reflexivity; try (destruct s1; reflexivity); try (destruct s2; reflexivity);
    try (destruct s1, s2; reflexivity).
  destruct (SFcompare (S754_finite s1 m1 e1) (S754_finite s2 m2 e2)) as [[] |] eqn:E;
    try reflexivity.
  simpl in E. discriminate.
Qed.

Lemma not_leb_alpha (p : float) :
  negb (p <=? alpha)%float = ((alpha <? p)%float || PrimFloat.is_nan p).
Proof.
  rewrite not_leb. replace (PrimFloat.is_nan alpha) with false by reflexivity.
  apply orb_false_r.
Qed.

(** A p-value that is a number is above the threshold exactly when it is
    not at or below it. *)
Lemma ltb_alpha_number (p : float) :
  PrimFloat.is_nan p = false -> (alpha <? p)%float = negb (p <=? alpha)%float.
Proof. intros N. rewrite not_leb_alpha, N. now rewrite orb_false_r. Qed.

(** C2, as the script has it.  A test that succeeded shows one verdict, a
    test that failed shows none.  ADF, Phillips-Perron and the range test
    say "stationary" exactly when [p <= 0.05].  KPSS says "stationary"
    exactly when [p <= 0.05] does not hold, that is when [p > 0.05] or the
    p-value is NaN. *)
Theorem verdict_polarity env data :
  verdicts (events (adf_section env data)) =
    match adfuller env data with
    | inr r => [(adf_pvalue r <=? alpha)%float]
    | inl _ => []
    end /\
  verdicts (events (kpss_section env data)) =
    match kpss env data with
    | inr r => [(alpha <? kpss_pvalue r)%float || PrimFloat.is_nan (kpss_pvalue r)]
    | inl _ => []
    end /\
  verdicts (events (pp_section env data)) =
    match PhillipsPerron env data with
    | inr pp => [(pp_pvalue pp <=? alpha)%float]
    | inl _ => []
    end /\
  verdicts (events (rur_section env data)) =
    match range_unit_root_test env data with
    | inr r => [(rur_pvalue r <=? alpha)%float]
    | inl _ => []
    end.
Proof.
  rewrite adf_section_eq, kpss_section_eq, pp_section_eq, rur_section_eq.
  repeat split.
  - destruct (adfuller env data) as [e | r]; [reflexivity |].
    unfold adf_verdict. destruct (adf_pvalue r <=? alpha)%float; reflexivity.
  - destruct (kpss env data) as [e | r]; [reflexivity |].
    rewrite <- not_leb_alpha. unfold kpss_verdict.
    destruct (kpss_pvalue r <=? alpha)%float; reflexivity.
  - destruct (PhillipsPerron env data) as [e | pp]; [reflexivity |].
    unfold adf_verdict. destruct (pp_pvalue pp <=? alpha)%float; reflexivity.
  - destruct (range_unit_root_test env data) as [e | r]; [reflexivity |].
    unfold adf_verdict. destruct (rur_pvalue r <=? alpha)%float; reflexivity.
Qed.

(** C2 as stated fails for KPSS at a p-value that is NaN: the routine
    returns, [p > 0.05] is false, and the page still says "stationary". *)
Lemma kpss_nan_says_stationary :
  kpss nan_env huge_series = inr nan_kpss /\
  (alpha <? kpss_pvalue nan_kpss)%float = false /\
  verdicts (events (kpss_section nan_env huge_series)) = [true] /\
  In (st_success stationary_fail) (events (main nan_env (only false true false false 0))).
Proof.
  repeat split; try reflexivity.
  vm_compute. intuition.
Qed.

(** ** The critical values in the tables *)

Lemma chop_paren_app (k : string) : chop_paren (k ++ ")") = Some k.
Proof.
  induction k as [| c k IH]; [reflexivity |].
  change (String c k ++ ")")%string with (String c (k ++ ")")).
  cbn [chop_paren]. rewrite IH.
  destruct k; reflexivity.
Qed.

Lemma critical_label_title (k : string) : critical_label (title k) = Some k.
Proof. unfold critical_label, title. cbn. apply chop_paren_app. Qed.

Lemma append_assoc (a b c : string) : ((a ++ b) ++ c = a ++ (b ++ c))%string.
Proof. induction a as [| x a IH]; [reflexivity |]. cbn. now rewrite IH. Qed.

Lemma title_pct_title (k : string) : title_pct k = title (k ++ "%").
Proof. unfold title_pct, title. now rewrite append_assoc. Qed.

Lemma setitem_fresh df name v :
  ~ In name (map col_name df) -> setitem df name v = df ++ [float_col name v].
Proof.
  induction df as [| c df IH]; intros F; [reflexivity |].
  cbn. destruct (String.eqb_spec (col_name c) name) as [E | N].
  - exfalso. apply F. now left.
  - rewrite IH; [reflexivity |]. intros I. apply F. now right.
Qed.

Lemma getitem_setitem_other df name v other :
  String.eqb name other = false ->
  getitem (setitem df name v) other = getitem df other.
Proof.
  intros N. induction df as [| c df IH]; cbn.
  - now rewrite N.
  - destruct (String.eqb_spec (col_name c) name) as [E | D]; cbn.
    + rewrite N, E, N. reflexivity.
    + destruct (String.eqb (col_name c) other); [reflexivity | exact IH].
Qed.

Section Loop.

(** How a loop titles the column of a key: no two keys alike. *)
Variable f : string -> string.
Hypothesis f_inj : forall a b, f a = f b -> a = b.

(** Over a dictionary, whose keys are distinct, the loop adds one column
    per entry, on the right, in the order of the dictionary. *)
Lemma loop_appends d : forall df,
  NoDup (map fst d) ->
  (forall k, In k (map fst d) -> ~ In (f k) (map col_name df)) ->
  loop f df d = df ++ map (fun kv => float_col (f (fst kv)) (snd kv)) d.
Proof.
  induction d as [| [k v] d IH]; intros df D F.
  - cbn. now rewrite app_nil_r.
  - inversion D as [| ? ? Hk D']; subst. cbn [loop fold_left fst snd map].
    rewrite setitem_fresh by (apply F; now left).
    fold (loop f (df ++ [float_col (f k) v]) d).
    rewrite IH; [now rewrite <- app_assoc | exact D' |].
    intros k' I. rewrite map_app, in_app_iff. intros [J | [J | []]].
    + apply (F k'); [now right | exact J].
    + cbn in J. apply f_inj in J. subst k'. now apply Hk.
Qed.

(** The loop leaves alone a column it never titles. *)
Lemma getitem_loop other d : forall df,
  (forall k, String.eqb (f k) other = false) ->
  getitem (loop f df d) other = getitem df other.
Proof.
  induction d as [| [k v] d IH]; intros df N; [reflexivity |].
  cbn [loop fold_left fst snd]. fold (loop f (setitem df (f k) v) d).
  rewrite IH by exact N. now apply getitem_setitem_other.
Qed.

End Loop.

Lemma title_inj a b : title a = title b -> a = b.
Proof.
  intros E. apply (f_equal critical_label) in E.
  rewrite !critical_label_title in E. now injection E.
Qed.

Lemma append_pct_inj (a b : string) : (a ++ "%" = b ++ "%")%string -> a = b.
Proof.
  revert b. induction a as [| x a IH]; intros [| y b] E; cbn in E.
  - reflexivity.
  - destruct b; discriminate.
  - destruct a; discriminate.
  - injection E as -> E. f_equal. now apply IH.
Qed.

Lemma title_pct_inj a b : title_pct a = title_pct b -> a = b.
Proof.
  rewrite !title_pct_title. intros E. apply title_inj in E.
  now apply append_pct_inj.
Qed.

Lemma critical_entries_app a b :
  critical_entries (a ++ b) = critical_entries a ++ critical_entries b.
Proof.
  induction a as [| c a IH]; [reflexivity |].
  cbn. destruct (critical_label (col_name c)); cbn; now rewrite IH.
Qed.

Lemma critical_entries_titles d :
  critical_entries (map (fun kv => float_col (title (fst kv)) (snd kv)) d) =
  map entry d.
Proof.
  induction d as [| [k v] d IH]; [reflexivity |].
  cbn [map critical_entries float_col col_name col_values fst snd].
  rewrite critical_label_title, IH. reflexivity.
Qed.

Lemma critical_entries_titles_pct d :
  critical_entries (map (fun kv => float_col (title_pct (fst kv)) (snd kv)) d) =
  map entry_pct d.
Proof.
  induction d as [| [k v] d IH]; [reflexivity |].
  cbn [map critical_entries float_col col_name col_values fst snd].
  rewrite title_pct_title, critical_label_title, IH. reflexivity.
Qed.

(** The columns each table starts with are not titled like a critical
    value. *)
Ltac fresh_title :=
  let k := fresh "k" in
  let I := fresh "I" in
  intros k _ I; cbn in I; unfold title, title_pct in I;
  repeat (destruct I as [I | I]; [discriminate I |]); exact I.

(** A column the table starts with, and that no key is titled like, stays
    where it is. *)
Lemma setitem_app_fresh base l name v :
  ~ In name (map col_name base) ->
  setitem (base ++ l) name v = base ++ setitem l name v.
Proof.
  induction base as [| c base IH]; intros F; [reflexivity |].
  cbn. destruct (String.eqb_spec (col_name c) name) as [E | N].
  - exfalso. apply F. now left.
  - rewrite IH; [reflexivity |]. intros I. apply F. now right.
Qed.

Lemma loop_keeps_start f base d : forall l,
  (forall k, ~ In (f k) (map col_name base)) ->
  loop f (base ++ l) d = base ++ loop f l d.
Proof.
  induction d as [| [k v] d IH]; intros l F; [reflexivity |].
  cbn [loop fold_left fst snd]. rewrite setitem_app_fresh by apply F.
  apply IH, F.
Qed.

(** C4, as the script has it.  A dictionary has no two entries under one
    key.  The tables of ADF, KPSS and the range test show one
    critical-value column per entry of the routine's dictionary, in its
    order, under the routine's own label and with its value.  The table of
    Phillips-Perron shows one column per entry as well, in order and with
    the value, but under the routine's label followed by [%]. *)
Theorem critical_values_shown
    (ra : adf_result) (rk : kpss_result) (pp : pp_object) (rr : rur_result) :
  NoDup (map fst (adf_crit ra)) ->
  NoDup (map fst (kpss_crit rk)) ->
  NoDup (map fst (pp_critical_values pp)) ->
  NoDup (map fst (rur_crit rr)) ->
  critical_entries (adf_output ra) = map entry (adf_crit ra) /\
  critical_entries (kpss_output rk) = map entry (kpss_crit rk) /\
  critical_entries (pp_output pp) = map entry_pct (pp_critical_values pp) /\
  critical_entries (rur_output rr) = map entry (rur_crit rr).
Proof.
  intros Da Dk Dp Dr.
  unfold adf_output, kpss_output, pp_output, rur_output,
    add_critical_values, add_critical_values_pct.
  rewrite !(loop_appends title title_inj) by (assumption || fresh_title).
  rewrite (loop_appends title_pct title_pct_inj) by (assumption || fresh_title).
  rewrite !critical_entries_app, !critical_entries_titles,
    critical_entries_titles_pct.
  repeat split.
Qed.

Lemma critical_values_shown_witness :
  critical_entries (adf_output sample_adf) = map entry levels /\
  critical_entries (kpss_output sample_kpss) = map entry levels /\
  critical_entries (pp_output sample_pp) = map entry_pct bare_levels /\
  critical_entries (rur_output sample_rur) = map entry levels.
Proof.
  apply (critical_values_shown sample_adf sample_kpss sample_pp sample_rur);
    repeat constructor; simpl; intuition discriminate.
Defined.

(** C4 as stated fails for Phillips-Perron: the routine returns the levels
    under [1], [5] and [10], and the table shows them under [1%], [5%] and
    [10%]. *)
Lemma pp_labels_get_a_suffix :
  map fst (pp_critical_values sample_pp) = ["1"; "5"; "10"] /\
  map fst (critical_entries (pp_output sample_pp)) = ["1%"; "5%"; "10%"] /\
  critical_entries (pp_output sample_pp) <> map entry (pp_critical_values sample_pp).
Proof.
  repeat split. vm_compute. discriminate.
Qed.

(** ** The hint of the Phillips-Perron section *)

(** C9, as the script has it.  The Phillips-Perron section shows the
    installation hint exactly when its routine raised, whatever was raised,
    right after the error message; no other section ever shows it. *)
Theorem pp_hint_on_any_failure env data :
  existsb is_hint (events (pp_section env data)) =
    match PhillipsPerron env data with inl _ => true | inr _ => false end /\
  errors (events (pp_section env data)) =
    match PhillipsPerron env data with
    | inl e => [("Error in Phillips-Perron test: " ++ exn_str e)%string]
    | inr _ => []
    end /\
  existsb is_hint (events (adf_section env data)) = false /\
  existsb is_hint (events (kpss_section env data)) = false /\
  existsb is_hint (events (rur_section env data)) = false.
Proof.
  rewrite adf_section_eq, kpss_section_eq, pp_section_eq, rur_section_eq.
  destruct (PhillipsPerron env data), (adfuller env data), (kpss env data),
    (range_unit_root_test env data); split_verdicts; repeat split.
Qed.

(** C9 as stated fails when the routine raises for another reason than a
    missing library: the series is too short, a [ValueError], and the hint
    is shown all the same.  A missing library, on the other hand, never
    reaches the section: the import at the top of the file fails first and
    the page stays empty. *)
Lemma hint_without_missing_dependency :
  PhillipsPerron sample_env [] = inl too_short /\
  exn_class too_short = "ValueError" /\
  events (pp_section sample_env []) =
    [ st_write (heading PP); st_write unit_root_null_text;
      st_error "Error in Phillips-Perron test: sample size is too short";
      st_info arch_hint ] /\
  script false sample_env (all_tests 0) = ([], Raise arch_missing).
Proof. repeat split. Qed.

(** ** The table of ADF *)

(** C10.  When the ADF routine returns, the one table of the section starts
    with the statistic, the p-value, the lags used and the number of
    observations, the last taken from position 3 of the routine's tuple.  No
    table of the three other kinds has a column of that name. *)
Theorem adf_table_has_observations env data r :
  adfuller env data = inr r ->
  tables (events (adf_section env data)) = [adf_output r] /\
  firstn 4 (adf_output r) =
    [ float_col "Statistic" (adf_stat r); float_col "p-value" (adf_pvalue r);
      int_col "Lags Used" (adf_usedlag r);
      int_col "Number of Observations" (adf_nobs r) ] /\
  getitem (adf_output r) "Number of Observations" =
    Some (int_col "Number of Observations" (adf_nobs r)) /\
  (forall rk, getitem (kpss_output rk) "Number of Observations" = None) /\
  (forall pp, getitem (pp_output pp) "Number of Observations" = None) /\
  (forall rr, getitem (rur_output rr) "Number of Observations" = None).
Proof.
  intros H. rewrite adf_section_eq, H. split; [| split; [| split]].
  - split_verdicts; reflexivity.
  - unfold adf_output, add_critical_values.
    rewrite <- (app_nil_r [_; _; _; _]).
    rewrite loop_keeps_start; [reflexivity |].
    intros k I. cbn in I. unfold title in I.
    repeat (destruct I as [I | I]; [discriminate I |]). exact I.
  - unfold adf_output, add_critical_values.
    rewrite getitem_loop; [reflexivity | intros k; reflexivity].
  - repeat split; intros;
      unfold kpss_output, pp_output, rur_output,
        add_critical_values, add_critical_values_pct;
      (rewrite getitem_loop; [reflexivity | intros k; reflexivity]).
Qed.

Lemma adf_table_has_observations_witness :
  tables (events (adf_section sample_env huge_series)) = [adf_output sample_adf] /\
  firstn 4 (adf_output sample_adf) =
    [ float_col "Statistic" (adf_stat sample_adf);
      float_col "p-value" (adf_pvalue sample_adf);
      int_col "Lags Used" (adf_usedlag sample_adf);
      int_col "Number of Observations" (adf_nobs sample_adf) ] /\
  getitem (adf_output sample_adf) "Number of Observations" =
    Some (int_col "Number of Observations" (adf_nobs sample_adf)) /\
  (forall rk, getitem (kpss_output rk) "Number of Observations" = None) /\
  (forall pp, getitem (pp_output pp) "Number of Observations" = None) /\
  (forall rr, getitem (rur_output rr) "Number of Observations" = None).
Proof.
  apply (adf_table_has_observations sample_env huge_series sample_adf).
  reflexivity.
Defined.

(** ** The cleaned series *)

Lemma dropna_subseq xs : Subseq (dropna xs) xs.
Proof.
  induction xs as [| x xs IH]; [constructor |].
  cbn. destruct (isna x); [now apply Subseq_skip | now apply Subseq_keep].
Qed.

Lemma dropna_not_missing xs : Forall (fun c => isna c = false) (dropna xs).
Proof.
  induction xs as [| x xs IH]; [constructor |].
  cbn. destruct (isna x) eqn:E; [exact IH | now constructor].
Qed.

(** Every value that is not missing is kept: a selection of values of the
    column, none of them missing, is a selection of the cleaned series. *)
Lemma dropna_keeps_all ys xs :
  Subseq ys xs -> Forall (fun c => isna c = false) ys -> Subseq ys (dropna xs).
Proof.
  induction 1 as [| x ys xs S IH | x ys xs S IH]; intros F.
  - constructor.
  - cbn. destruct (isna x); [now apply IH | apply Subseq_skip; now apply IH].
  - inversion F as [| ? ? Hx F']; subst. cbn. rewrite Hx.
    apply Subseq_keep. now apply IH.
Qed.

Lemma dropna_nil xs : dropna xs = [] <-> Forall (fun c => isna c = true) xs.
Proof.
  induction xs as [| x xs IH]; [split; constructor |].
  cbn. destruct (isna x) eqn:E; split; intros H.
  - constructor; [exact E | now apply IH].
  - inversion H; subst. now apply IH.
  - discriminate.
  - inversion H; congruence.
Qed.

(** The column the select box returns is a numeric column of the sheet, so
    [df[selected_column]] finds a column. *)
Lemma selected_is_offered df ui :
  numeric_columns df <> [] -> In (selected_column df ui) (numeric_columns df).
Proof.
  unfold selected_column, selectbox_value. intros N.
  destruct (numeric_columns df) as [| n ns]; [contradiction |].
  destruct (Nat.lt_ge_cases (selected ui) (List.length (n :: ns))) as [L | G].
  - now apply nth_In.
  - rewrite nth_overflow by exact G. now left.
Qed.

Lemma getitem_finds df name :
  In name (map col_name df) ->
  exists col, getitem df name = Some col /\ col_name col = name.
Proof.
  induction df as [| c df IH]; intros I; [destruct I |].
  cbn. destruct (String.eqb_spec (col_name c) name) as [E | N].
  - now exists c.
  - destruct I as [I | I]; [contradiction |]. now apply IH.
Qed.

Lemma getitem_selected df ui :
  numeric_columns df <> [] ->
  exists col, getitem df (selected_column df ui) = Some col /\
              col_name col = selected_column df ui.
Proof.
  intros N. apply getitem_finds.
  apply (selected_is_offered df ui) in N.
  apply numeric_columns_spec in N. destruct N as [c [I [E _]]].
  rewrite <- E. now apply in_map.
Qed.

(** C8.  On a sheet with a numeric column, the chosen column is found, and
    the series [main] plots and hands to the tests is that column with its
    missing values left out: it is the column's values in their order with
    some left out, none of its values is missing, and every selection of
    values of the column that are not missing is a selection of it. *)
Theorem cleaned_series_in_order env ui file df :
  uploaded_file ui = Some file ->
  read_excel env file = inr df ->
  numeric_columns df <> [] ->
  exists col data,
    getitem df (selected_column df ui) = Some col /\
    In (st_pyplot ("Time Series: " ++ selected_column df ui) data)
       (events (main env ui)) /\
    (button ui = true ->
     main env ui =
       (page_top ++ preview df ++ [selector df] ++
        controls (selected_column df ui) data ++ events (run_tests env ui data),
        outcome (run_tests env ui data))) /\
    Subseq data (col_values col) /\
    Forall (fun c => isna c = false) data /\
    (forall ys, Subseq ys (col_values col) ->
                Forall (fun c => isna c = false) ys -> Subseq ys data).
Proof.
  intros U R N. destruct (getitem_selected df ui N) as [col [G E]].
  exists col, (dropna (col_values col)).
  assert (M : main env ui =
    if button ui
    then (page_top ++ preview df ++ [selector df] ++
          controls (selected_column df ui) (dropna (col_values col)) ++
          events (run_tests env ui (dropna (col_values col))),
          outcome (run_tests env ui (dropna (col_values col))))
    else (page_top ++ preview df ++ [selector df] ++
          controls (selected_column df ui) (dropna (col_values col)), Ok tt)).
  { rewrite main_eq, U, R, G. destruct (numeric_columns df); [contradiction |].
    reflexivity. }
  split; [exact G |]. split; [| split; [| split; [| split]]].
  - rewrite M. destruct (button ui); cbn [events fst];
      apply in_or_app; right; apply in_or_app; right;
      apply in_or_app; right; [apply in_or_app; left |]; cbn; tauto.
  - intros B. now rewrite M, B.
  - apply dropna_subseq.
  - apply dropna_not_missing.
  - intros ys. apply dropna_keeps_all.
Qed.

Lemma cleaned_series_in_order_witness :
  exists col data,
    getitem sample_sheet (selected_column sample_sheet (all_tests 0)) = Some col /\
    In (st_pyplot ("Time Series: " ++ selected_column sample_sheet (all_tests 0)) data)
       (events (main sample_env (all_tests 0))) /\
    (button (all_tests 0) = true ->
     main sample_env (all_tests 0) =
       (page_top ++ preview sample_sheet ++ [selector sample_sheet] ++
        controls (selected_column sample_sheet (all_tests 0)) data ++
        events (run_tests sample_env (all_tests 0) data),
        outcome (run_tests sample_env (all_tests 0) data))) /\
    Subseq data (col_values col) /\
    Forall (fun c => isna c = false) data /\
    (forall ys, Subseq ys (col_values col) ->
                Forall (fun c => isna c = false) ys -> Subseq ys data).
Proof.
  apply (cleaned_series_in_order sample_env (all_tests 0) "data.xlsx" sample_sheet).
  - reflexivity.
  - reflexivity.
  - discriminate.
Defined.

(** What the sample sheet gives: the gap of the column is left out, the
    two other values stay in their order. *)
Example dropna_sample :
  dropna [CFloat 1.5%float; CFloat nan; CFloat 2.5%float] =
  [CFloat 1.5%float; CFloat 2.5%float].
Proof. reflexivity. Qed.

(** ** A column with nothing left in it *)

(** C3, as the script has it.  When nothing is left of the column after
    [dropna], the script does not stop: the sections of KPSS,
    Phillips-Perron and the range test call their routines on the empty
    series.  A routine that raises there has its failure written as the
    error message of its section, a routine that returns has its table and
    verdict shown, and in both cases the section ends normally; so with the
    ADF box unticked the run ends normally and shows the section of every
    ticked box. *)
Theorem empty_series_reaches_routines env xs :
  dropna xs = [] ->
  kpss_section env (dropna xs) =
    ([st_write (heading KPSS); st_write stationary_null_text] ++
     match kpss env [] with
     | inr r => [st_dataframe (kpss_output r); kpss_verdict (kpss_pvalue r)]
     | inl e => [st_error ("Error in KPSS test: " ++ exn_str e)]
     end, Ok tt) /\
  pp_section env (dropna xs) =
    ([st_write (heading PP); st_write unit_root_null_text] ++
     match PhillipsPerron env [] with
     | inr pp =>
         [st_dataframe (pp_output pp); adf_verdict (pp_pvalue pp);
          st_text "Detailed Phillips-Perron Test Results:"; st_text (pp_summary pp)]
     | inl e =>
         [st_error ("Error in Phillips-Perron test: " ++ exn_str e); st_info arch_hint]
     end, Ok tt) /\
  rur_section env (dropna xs) =
    ([st_write (heading RUR); st_write unit_root_null_text] ++
     match range_unit_root_test env [] with
     | inr r => [st_dataframe (rur_output r); adf_verdict (rur_pvalue r)]
     | inl e => [st_error ("Error in Range Unit Root test: " ++ exn_str e)]
     end, Ok tt) /\
  (forall ui, run_adf ui = false ->
     outcome (run_tests env ui (dropna xs)) = Ok tt /\
     sections (events (run_tests env ui (dropna xs))) = enabled_kinds ui).
Proof.
  intros E. rewrite E. repeat split.
  - apply kpss_section_eq.
  - apply pp_section_eq.
  - apply rur_section_eq.
  - apply sections_when_adf_returns. now left.
  - apply sections_when_adf_returns. now left.
Qed.

Lemma empty_series_reaches_routines_witness :
  kpss_section sample_env (dropna [CFloat nan; CNone]) =
    ([st_write (heading KPSS); st_write stationary_null_text] ++
     match kpss sample_env [] with
     | inr r => [st_dataframe (kpss_output r); kpss_verdict (kpss_pvalue r)]
     | inl e => [st_error ("Error in KPSS test: " ++ exn_str e)]
     end, Ok tt) /\
  pp_section sample_env (dropna [CFloat nan; CNone]) =
    ([st_write (heading PP); st_write unit_root_null_text] ++
     match PhillipsPerron sample_env [] with
     | inr pp =>
         [st_dataframe (pp_output pp); adf_verdict (pp_pvalue pp);
          st_text "Detailed Phillips-Perron Test Results:"; st_text (pp_summary pp)]
     | inl e =>
         [st_error ("Error in Phillips-Perron test: " ++ exn_str e); st_info arch_hint]
     end, Ok tt) /\
  rur_section sample_env (dropna [CFloat nan; CNone]) =
    ([st_write (heading RUR); st_write unit_root_null_text] ++
     match range_unit_root_test sample_env [] with
     | inr r => [st_dataframe (rur_output r); adf_verdict (rur_pvalue r)]
     | inl e => [st_error ("Error in Range Unit Root test: " ++ exn_str e)]
     end, Ok tt) /\
  (forall ui, run_adf ui = false ->
     outcome (run_tests sample_env ui (dropna [CFloat nan; CNone])) = Ok tt /\
     sections (events (run_tests sample_env ui (dropna [CFloat nan; CNone]))) =
       enabled_kinds ui).
Proof.
  apply (empty_series_reaches_routines sample_env [CFloat nan; CNone]).
  reflexivity.
Defined.

(** C3 as stated fails on the sample sheet's column with nothing in it.
    With the real routines' refusal of an empty series and all boxes
    ticked, ADF shows no error message and its exception ends the run.
    With routines that accept an empty series, no test fails at all: each
    shows its verdict for the empty series. *)
Lemma empty_series_not_refused :
  option_map (fun c => dropna (col_values c)) (getitem sample_sheet "empty") = Some [] /\
  selected_column sample_sheet (all_tests 1) = "empty" /\
  outcome (main sample_env (all_tests 1)) = Raise too_short /\
  errors (events (main sample_env (all_tests 1))) = [] /\
  outcome (main lenient_env (only false true true true 1)) = Ok tt /\
  errors (events (main lenient_env (only false true true true 1))) = [] /\
  verdicts (events (main lenient_env (only false true true true 1))) = [true; true; true].
Proof. repeat split; vm_compute; reflexivity. Qed.

(** * More of what [main] does *)

(** ** How a run can end *)

(** A run ends with an exception exactly when the ADF box is ticked and the
    ADF routine raises. *)
Lemma run_tests_outcome env ui data :
  outcome (run_tests env ui data) =
  if run_adf ui
  then match adfuller env data with inl e => Raise e | inr _ => Ok tt end
  else Ok tt.
Proof.
  rewrite run_tests_eq. destruct (run_adf ui); [| reflexivity].
  rewrite adf_section_eq. destruct (adfuller env data); reflexivity.
Qed.

(** [main] ends with an exception in two cases and no other: reading the
    uploaded file raised it (line 22), or the button was pressed with the
    ADF box ticked and the ADF routine raised it on the cleaned series of
    the chosen column (line 65).  In particular [df[selected_column]] never
    raises: the chosen name is always a column of the sheet. *)
Theorem main_raises_iff env ui e :
  outcome (main env ui) = Raise e <->
  exists file,
    uploaded_file ui = Some file /\
    (read_excel env file = inl e \/
     exists df col,
       read_excel env file = inr df /\
       numeric_columns df <> [] /\
       getitem df (selected_column df ui) = Some col /\
       button ui = true /\
       run_adf ui = true /\
       adfuller env (dropna (col_values col)) = inl e).
Proof.
  rewrite main_eq. split.
  - destruct (uploaded_file ui) as [file |]; [| discriminate].
    intros H. exists file. split; [reflexivity |].
    destruct (read_excel env file) as [e' | df]; [left; cbn in H; congruence |].
    right. destruct (numeric_columns df) as [| n ns] eqn:N; [discriminate |].
    assert (N' : numeric_columns df <> []) by (rewrite N; discriminate).
    destruct (getitem_selected df ui N') as [col [G _]]. rewrite G in H.
    exists df, col. cbv zeta in H.
    destruct (button ui); [| discriminate]. cbn [outcome snd] in H.
    rewrite run_tests_outcome in H.
    destruct (run_adf ui); [| discriminate].
    destruct (adfuller env (dropna (col_values col))) as [e' |]; [| discriminate].
    repeat split; try assumption; try reflexivity. congruence.
  - intros [file [U [R | [df [col [R [N [G [B [A F]]]]]]]]]]; rewrite U, R.
    + reflexivity.
    + destruct (numeric_columns df); [contradiction |].
      rewrite G. cbv zeta. rewrite B. cbn [outcome snd].
      now rewrite run_tests_outcome, A, F.
Qed.

(** ** Before the button is pressed *)

(** Until "Run Tests" is pressed no test runs: the page shows no section,
    no verdict and no other table than the preview, and it is the same page
    whatever the four statistical routines would do. *)
Theorem tests_wait_for_button env env' ui :
  button ui = false ->
  (forall file, read_excel env' file = read_excel env file) ->
  main env' ui = main env ui /\
  sections (events (main env ui)) = [] /\
  verdicts (events (main env ui)) = [] /\
  List.length (tables (events (main env ui))) <= 1.
Proof.
  intros B R. rewrite !main_eq.
  destruct (uploaded_file ui) as [file |]; [| repeat split; cbn; auto].
  rewrite R. destruct (read_excel env file) as [e | df]; [repeat split; cbn; auto |].
  destruct (numeric_columns df) as [| n ns]; [repeat split; cbn; auto |].
  destruct (getitem df (selected_column df ui)) as [col |];
    [| repeat split; cbn; auto].
  cbv zeta. rewrite B. repeat split; cbn; auto.
Qed.

Lemma tests_wait_for_button_witness :
  main lenient_env (mkSession (Some "data.xlsx") 0 true true true true false) =
  main sample_env (mkSession (Some "data.xlsx") 0 true true true true false) /\
  sections (events (main sample_env
    (mkSession (Some "data.xlsx") 0 true true true true false))) = [] /\
  verdicts (events (main sample_env
    (mkSession (Some "data.xlsx") 0 true true true true false))) = [] /\
  List.length (tables (events (main sample_env
    (mkSession (Some "data.xlsx") 0 true true true true false)))) <= 1.
Proof.
  apply (tests_wait_for_button sample_env lenient_env
           (mkSession (Some "data.xlsx") 0 true true true true false)).
  - reflexivity.
  - intros file. reflexivity.
Defined.

(** ** After the button is pressed *)

(** The part of the page above the results shows no section. *)
Lemma sections_above_results df name data :
  sections (page_top ++ preview df ++ [selector df] ++ controls name data) = [].
Proof. reflexivity. Qed.

(** When the button is pressed and the ADF test is unticked or its routine
    returns, [main] ends normally and its page shows the section of every
    ticked box and of no other, in the order ADF, KPSS, Phillips-Perron,
    range test, whatever the three other routines do. *)
Theorem ticked_sections_shown env ui file df col :
  uploaded_file ui = Some file ->
  read_excel env file = inr df ->
  numeric_columns df <> [] ->
  getitem df (selected_column df ui) = Some col ->
  button ui = true ->
  (run_adf ui = false \/ exists r, adfuller env (dropna (col_values col)) = inr r) ->
  outcome (main env ui) = Ok tt /\
  sections (events (main env ui)) = enabled_kinds ui.
Proof.
  intros U R N G B A. rewrite main_eq, U, R, G.
  destruct (numeric_columns df) eqn:E; [contradiction |]. cbv zeta. rewrite B.
  destruct (sections_when_adf_returns env ui (dropna (col_values col)) A) as [O S].
  split; [exact O |]. cbn [events fst].
  rewrite !app_assoc, sections_app, <- !app_assoc, sections_above_results.
  exact S.
Qed.

Lemma ticked_sections_shown_witness :
  outcome (main sample_env (only true false true true 0)) = Ok tt /\
  sections (events (main sample_env (only true false true true 0))) =
    enabled_kinds (only true false true true 0).
Proof.
  apply (ticked_sections_shown sample_env (only true false true true 0)
           "data.xlsx" sample_sheet
           (mkColumn "gdp" float64 [CFloat 1.5%float; CFloat nan; CFloat 2.5%float])).
  - reflexivity.
  - reflexivity.
  - discriminate.
  - reflexivity.
  - reflexivity.
  - right. exists sample_adf. reflexivity.
Defined.

(** ** The column that is tested *)

Lemma getitem_in df name col :
  getitem df name = Some col -> In col df /\ col_name col = name.
Proof.
  induction df as [| c df IH]; [discriminate |].
  cbn. destruct (String.eqb_spec (col_name c) name) as [E | N].
  - intros H. injection H as <-. split; [now left | exact E].
  - intros H. destruct (IH H) as [I E]. split; [now right | exact E].
Qed.

(** On a sheet with a numeric column and no two columns of one name, the
    column [df[selected_column]] hands to the tests is a column of the
    sheet, carries the chosen name and has a numeric type: text is never
    tested, whatever the user picks in the select box. *)
Theorem selected_column_is_numeric df ui :
  numeric_columns df <> [] ->
  NoDup (map col_name df) ->
  exists col,
    getitem df (selected_column df ui) = Some col /\
    In col df /\
    col_name col = selected_column df ui /\
    is_number (col_dtype col) = true.
Proof.
  intros N D. destruct (getitem_selected df ui N) as [col [G E]].
  exists col. destruct (getitem_in df _ col G) as [I _].
  repeat split; try assumption.
  pose proof (selected_is_offered df ui N) as O.
  apply numeric_columns_spec in O. destruct O as [c [Ic [Ec T]]].
  rewrite <- (unique_names df c col D Ic I); [exact T | congruence].
Qed.

Lemma selected_column_is_numeric_witness :
  exists col,
    getitem sample_sheet (selected_column sample_sheet (all_tests 7)) = Some col /\
    In col sample_sheet /\
    col_name col = selected_column sample_sheet (all_tests 7) /\
    is_number (col_dtype col) = true.
Proof.
  apply (selected_column_is_numeric sample_sheet (all_tests 7)).
  - discriminate.
  - repeat constructor; simpl; intuition discriminate.
Defined.

(** ** What each ticked test leaves on the page *)

Lemma verdicts_app a b : verdicts (a ++ b) = verdicts a ++ verdicts b.
Proof.
  induction a as [| ev a IH]; [reflexivity |].
  simpl. destruct (verdict_of ev); simpl; now rewrite IH.
Qed.

(** Solves a statement about one section by cases on what its routine
    answers and on the verdict. *)
Ltac by_section_cases :=
  rewrite ?adf_section_eq, ?kpss_section_eq, ?pp_section_eq, ?rur_section_eq;
  repeat match goal with
         | |- context [match ?r with inl _ => _ | inr _ => _ end] => destruct r
         end;
  split_verdicts; reflexivity.

Lemma tables_adf env data :
  tables (events (adf_section env data)) =
  match adfuller env data with inr r => [adf_output r] | inl _ => [] end.
Proof. by_section_cases. Qed.

Lemma tables_kpss env data :
  tables (events (kpss_section env data)) =
  match kpss env data with inr r => [kpss_output r] | inl _ => [] end.
Proof. by_section_cases. Qed.

Lemma tables_pp env data :
  tables (events (pp_section env data)) =
  match PhillipsPerron env data with inr pp => [pp_output pp] | inl _ => [] end.
Proof. by_section_cases. Qed.

Lemma tables_rur env data :
  tables (events (rur_section env data)) =
  match range_unit_root_test env data with inr r => [rur_output r] | inl _ => [] end.
Proof. by_section_cases. Qed.

Lemma errors_adf env data : errors (events (adf_section env data)) = [].
Proof. by_section_cases. Qed.

Lemma errors_kpss env data :
  errors (events (kpss_section env data)) =
  match kpss env data with
  | inl e => [("Error in KPSS test: " ++ exn_str e)%string]
  | inr _ => []
  end.
Proof. by_section_cases. Qed.

Lemma errors_pp env data :
  errors (events (pp_section env data)) =
  match PhillipsPerron env data with
  | inl e => [("Error in Phillips-Perron test: " ++ exn_str e)%string]
  | inr _ => []
  end.
Proof. by_section_cases. Qed.

Lemma errors_rur env data :
  errors (events (rur_section env data)) =
  match range_unit_root_test env data with
  | inl e => [("Error in Range Unit Root test: " ++ exn_str e)%string]
  | inr _ => []
  end.
Proof. by_section_cases. Qed.

(** In every section the verdicts are as many as the tables. *)
Lemma verdicts_adf env data :
  List.length (verdicts (events (adf_section env data))) =
  List.length (tables (events (adf_section env data))).
Proof. by_section_cases. Qed.

Lemma verdicts_kpss env data :
  List.length (verdicts (events (kpss_section env data))) =
  List.length (tables (events (kpss_section env data))).
Proof. by_section_cases. Qed.

Lemma verdicts_pp env data :
  List.length (verdicts (events (pp_section env data))) =
  List.length (tables (events (pp_section env data))).
Proof. by_section_cases. Qed.

Lemma verdicts_rur env data :
  List.length (verdicts (events (rur_section env data))) =
  List.length (tables (events (rur_section env data))).
Proof. by_section_cases. Qed.

Lemma verdicts_guarded ui env data :
  List.length (verdicts (guarded_part ui env data)) =
  List.length (tables (guarded_part ui env data)).
Proof.
  unfold guarded_part.
  rewrite !verdicts_app, !tables_app, !length_app.
  destruct (run_kpss ui), (run_pp ui), (run_rur ui);
    rewrite ?verdicts_kpss, ?verdicts_pp, ?verdicts_rur; reflexivity.
Qed.

(** The events of a run, cut at the place where the ADF section ends. *)
Lemma run_tests_events env ui data :
  events (run_tests env ui data) =
  (st_write "## Test Results" ::
   (if run_adf ui then events (adf_section env data) else [])) ++
  match outcome (run_tests env ui data) with
  | Ok _ => guarded_part ui env data
  | Raise _ => []
  end.
Proof.
  rewrite run_tests_eq. destruct (run_adf ui).
  - rewrite adf_section_eq. destruct (adfuller env data); cbn;
      now rewrite ?app_nil_r.
  - reflexivity.
Qed.

Lemma verdicts_run_tests env ui data :
  List.length (verdicts (events (run_tests env ui data))) =
  List.length (tables (events (run_tests env ui data))).
Proof.
  rewrite run_tests_events, verdicts_app, tables_app, !length_app.
  f_equal.
  - cbn. destruct (run_adf ui); [apply verdicts_adf | reflexivity].
  - destruct (outcome (run_tests env ui data)); [apply verdicts_guarded | reflexivity].
Qed.

(** On every page of a sheet that was read, each table of results comes
    with one verdict and each verdict with one table: the tables of the
    page are the preview and one table per verdict, also when the run is
    cut short by an exception. *)
Theorem one_verdict_per_table env ui file df :
  uploaded_file ui = Some file ->
  read_excel env file = inr df ->
  List.length (tables (events (main env ui))) =
  S (List.length (verdicts (events (main env ui)))) /\
  List.hd_error (tables (events (main env ui))) = Some (head df).
Proof.
  intros U R. rewrite main_eq, U, R.
  destruct (numeric_columns df); [split; reflexivity |].
  destruct (getitem df (selected_column df ui)); [| split; reflexivity].
  cbv zeta. destruct (button ui); [| split; reflexivity].
  cbn [events fst]. split; [| reflexivity].
  change (List.length (head df :: tables (events (run_tests env ui (dropna (col_values c))))) =
          S (List.length (verdicts (events (run_tests env ui (dropna (col_values c))))))).
  cbn [List.length]. now rewrite verdicts_run_tests.
Qed.

Lemma one_verdict_per_table_witness :
  List.length (tables (events (main sample_env (all_tests 1)))) =
  S (List.length (verdicts (events (main sample_env (all_tests 1))))) /\
  List.hd_error (tables (events (main sample_env (all_tests 1)))) =
    Some (head sample_sheet).
Proof.
  apply (one_verdict_per_table sample_env (all_tests 1) "data.xlsx" sample_sheet);
    reflexivity.
Defined.

(** When the ADF test is unticked or its routine returns, every ticked test
    leaves on the page, in the order of the script, either the table of
    what its routine returned or, for the three tests inside a [try], one
    error message that names the test and quotes the exception. *)
Theorem run_shows_table_or_error env ui data :
  (run_adf ui = false \/ exists r, adfuller env data = inr r) ->
  tables (events (run_tests env ui data)) =
    (if run_adf ui
     then match adfuller env data with inr r => [adf_output r] | inl _ => [] end
     else []) ++
    (if run_kpss ui
     then match kpss env data with inr r => [kpss_output r] | inl _ => [] end
     else []) ++
    (if run_pp ui
     then match PhillipsPerron env data with inr pp => [pp_output pp] | inl _ => [] end
     else []) ++
    (if run_rur ui
     then match range_unit_root_test env data with
          | inr r => [rur_output r] | inl _ => [] end
     else []) /\
  errors (events (run_tests env ui data)) =
    (if run_kpss ui
     then match kpss env data with
          | inl e => [("Error in KPSS test: " ++ exn_str e)%string]
          | inr _ => [] end
     else []) ++
    (if run_pp ui
     then match PhillipsPerron env data with
          | inl e => [("Error in Phillips-Perron test: " ++ exn_str e)%string]
          | inr _ => [] end
     else []) ++
    (if run_rur ui
     then match range_unit_root_test env data with
          | inl e => [("Error in Range Unit Root test: " ++ exn_str e)%string]
          | inr _ => [] end
     else []).
Proof.
  intros A.
  destruct (sections_when_adf_returns env ui data A) as [O _].
  rewrite run_tests_events, O. unfold guarded_part.
  rewrite !tables_app, !errors_app.
  rewrite <- tables_adf, <- tables_kpss, <- tables_pp, <- tables_rur,
    <- errors_kpss, <- errors_pp, <- errors_rur.
  split.
  - f_equal; [destruct (run_adf ui); reflexivity |].
    destruct (run_kpss ui), (run_pp ui), (run_rur ui); reflexivity.
  - replace (errors (st_write "## Test Results" ::
               (if run_adf ui then events (adf_section env data) else [])))
      with (@nil string)
      by (destruct (run_adf ui);
          [exact (eq_sym (errors_adf env data)) | reflexivity]).
    destruct (run_kpss ui), (run_pp ui), (run_rur ui); reflexivity.
Qed.

Lemma run_shows_table_or_error_witness :
  tables (events (run_tests sample_env (only false true true true 0) [])) =
    (if run_adf (only false true true true 0)
     then match adfuller sample_env [] with inr r => [adf_output r] | inl _ => [] end
     else []) ++
    (if run_kpss (only false true true true 0)
     then match kpss sample_env [] with inr r => [kpss_output r] | inl _ => [] end
     else []) ++
    (if run_pp (only false true true true 0)
     then match PhillipsPerron sample_env [] with
          | inr pp => [pp_output pp] | inl _ => [] end
     else []) ++
    (if run_rur (only false true true true 0)
     then match range_unit_root_test sample_env [] with
          | inr r => [rur_output r] | inl _ => [] end
     else []) /\
  errors (events (run_tests sample_env (only false true true true 0) [])) =
    (if run_kpss (only false true true true 0)
     then match kpss sample_env [] with
          | inl e => [("Error in KPSS test: " ++ exn_str e)%string]
          | inr _ => [] end
     else []) ++
    (if run_pp (only false true true true 0)
     then match PhillipsPerron sample_env [] with
          | inl e => [("Error in Phillips-Perron test: " ++ exn_str e)%string]
          | inr _ => [] end
     else []) ++
    (if run_rur (only false true true true 0)
     then match range_unit_root_test sample_env [] with
          | inl e => [("Error in Range Unit Root test: " ++ exn_str e)%string]
          | inr _ => [] end
     else []).
Proof.
  apply (run_shows_table_or_error sample_env (only false true true true 0) []).
  left. reflexivity.
Defined.

(** ** The columns of the four tables *)

(** Whatever keys the routine's dictionary has, the loop over the critical
    values never overwrites the columns a table starts with: the statistic
    and the p-value are in all four tables, the lags used in those of ADF,
    KPSS and Phillips-Perron, each with the routine's value, and the table
    of the range test has no column of lags. *)
Theorem fixed_columns_present
    (ra : adf_result) (rk : kpss_result) (pp : pp_object) (rr : rur_result) :
  (getitem (adf_output ra) "Statistic" = Some (float_col "Statistic" (adf_stat ra)) /\
   getitem (adf_output ra) "p-value" = Some (float_col "p-value" (adf_pvalue ra)) /\
   getitem (adf_output ra) "Lags Used" = Some (int_col "Lags Used" (adf_usedlag ra))) /\
  (getitem (kpss_output rk) "Statistic" = Some (float_col "Statistic" (kpss_stat rk)) /\
   getitem (kpss_output rk) "p-value" = Some (float_col "p-value" (kpss_pvalue rk)) /\
   getitem (kpss_output rk) "Lags Used" = Some (int_col "Lags Used" (kpss_lags rk))) /\
  (getitem (pp_output pp) "Statistic" = Some (float_col "Statistic" (pp_stat pp)) /\
   getitem (pp_output pp) "p-value" = Some (float_col "p-value" (pp_pvalue pp)) /\
   getitem (pp_output pp) "Lags Used" = Some (int_col "Lags Used" (pp_lags pp))) /\
  (getitem (rur_output rr) "Statistic" = Some (float_col "Statistic" (rur_stat rr)) /\
   getitem (rur_output rr) "p-value" = Some (float_col "p-value" (rur_pvalue rr)) /\
   getitem (rur_output rr) "Lags Used" = None).
Proof.
  unfold adf_output, kpss_output, pp_output, rur_output,
    add_critical_values, add_critical_values_pct.
  repeat split;
    (rewrite getitem_loop; [reflexivity | intros k; reflexivity]).
Qed.

Lemma setitem_names df name v x :
  In x (map col_name (setitem df name v)) -> x = name \/ In x (map col_name df).
Proof.
  induction df as [| c df IH]; cbn.
  - intros [H | []]. now left.
  - destruct (String.eqb_spec (col_name c) name) as [E | N]; cbn.
    + intros [H | H]; [now left | right; now right].
    + intros [H | H]; [right; now left |].
      destruct (IH H) as [J | J]; [now left | right; now right].
Qed.

Lemma setitem_distinct df name v :
  NoDup (map col_name df) -> NoDup (map col_name (setitem df name v)).
Proof.
  induction df as [| c df IH]; intros D; cbn.
  - repeat constructor. intros [].
  - inversion D as [| ? ? Hc D']; subst.
    destruct (String.eqb_spec (col_name c) name) as [E | N]; cbn.
    + rewrite <- E. now constructor.
    + constructor; [| now apply IH].
      intros H. apply setitem_names in H. destruct H as [H | H];
        [now apply N | now apply Hc].
Qed.

Lemma loop_distinct f d : forall df,
  NoDup (map col_name df) -> NoDup (map col_name (loop f df d)).
Proof.
  induction d as [| [k v] d IH]; intros df D; [exact D |].
  cbn [loop fold_left fst snd]. apply IH. now apply setitem_distinct.
Qed.

(** No table ever has two columns of one title, whatever the routine's
    dictionary holds: setting a column whose title is already there
    replaces it. *)
Theorem tables_keep_distinct_titles
    (ra : adf_result) (rk : kpss_result) (pp : pp_object) (rr : rur_result) :
  NoDup (map col_name (adf_output ra)) /\
  NoDup (map col_name (kpss_output rk)) /\
  NoDup (map col_name (pp_output pp)) /\
  NoDup (map col_name (rur_output rr)).
Proof.
  unfold adf_output, kpss_output, pp_output, rur_output,
    add_critical_values, add_critical_values_pct.
  repeat split; apply loop_distinct;
    repeat constructor; cbn; intuition discriminate.
Qed.

(** The same key twice in the list of entries (the second assignment of a
    Python dictionary, or a second run of the loop): the column is set
    again, not added again, and shows the last value. *)
Lemma setitem_twice df name v w :
  setitem (setitem df name v) name w = setitem df name w.
Proof.
  induction df as [| c df IH]; cbn.
  - now rewrite String.eqb_refl.
  - destruct (String.eqb_spec (col_name c) name) as [E | N]; cbn.
    + now rewrite String.eqb_refl.
    + destruct (String.eqb_spec (col_name c) name); [contradiction |].
      now rewrite IH.
Qed.

(** Writing a column and reading it back gives the value written, in a
    column of floats under the title written, whatever the table held. *)
Lemma getitem_setitem df name v :
  getitem (setitem df name v) name = Some (float_col name v) /\
  (forall other, String.eqb name other = false ->
     getitem (setitem df name v) other = getitem df other) /\
  (forall w, setitem (setitem df name v) name w = setitem df name w).
Proof.
  split; [| split].
  - induction df as [| c df IH]; cbn.
    + now rewrite String.eqb_refl.
    + destruct (String.eqb_spec (col_name c) name) as [E | N]; cbn.
      * now rewrite String.eqb_refl.
      * destruct (String.eqb_spec (col_name c) name); [contradiction | exact IH].
  - intros other. apply getitem_setitem_other.
  - intros w. apply setitem_twice.
Qed.

(** ** Cleaning a column *)

Lemma dropna_clean xs :
  Forall (fun c => isna c = false) xs -> dropna xs = xs.
Proof.
  induction 1 as [| x xs Hx F IH]; [reflexivity |].
  cbn. now rewrite Hx, IH.
Qed.

Lemma dropna_length xs : List.length (dropna xs) <= List.length xs.
Proof.
  induction xs as [| x xs IH]; [apply le_n |].
  cbn. destruct (isna x); cbn; [now apply le_S | now apply le_n_S].
Qed.

(** [dropna] leaves a column as it is exactly when the column has no
    missing value (a column of integers never has one), cleaning twice is
    cleaning once, the cleaned series is never longer than the column, and
    cleaning two pieces put end to end cleans each. *)
Theorem dropna_fixpoint xs ys zs :
  (dropna xs = xs <-> Forall (fun c => isna c = false) xs) /\
  dropna (dropna xs) = dropna xs /\
  List.length (dropna xs) <= List.length xs /\
  dropna (xs ++ ys) = dropna xs ++ dropna ys /\
  dropna (map CInt zs) = map CInt zs.
Proof.
  split; [| split; [| split; [| split]]].
  - split; [| apply dropna_clean].
    intros E. rewrite <- E. apply dropna_not_missing.
  - apply dropna_clean, dropna_not_missing.
  - apply dropna_length.
  - induction xs as [| x xs IH]; [reflexivity |].
    cbn. destruct (isna x); cbn; now rewrite IH.
  - apply dropna_clean. apply Forall_forall. intros c I.
    apply in_map_iff in I. destruct I as [z [<- _]]. reflexivity.
Qed.

(** When the chosen column has no missing value, [main] plots the column
    as it is and, once the button is pressed, runs the tests on the column
    as it is: cleaning takes nothing away and puts nothing in. *)
Theorem clean_column_untouched env ui file df col :
  uploaded_file ui = Some file ->
  read_excel env file = inr df ->
  numeric_columns df <> [] ->
  getitem df (selected_column df ui) = Some col ->
  Forall (fun c => isna c = false) (col_values col) ->
  In (st_pyplot ("Time Series: " ++ col_name col) (col_values col))
     (events (main env ui)) /\
  (button ui = true ->
   main env ui =
     (page_top ++ preview df ++ [selector df] ++
      controls (col_name col) (col_values col) ++
      events (run_tests env ui (col_values col)),
      outcome (run_tests env ui (col_values col)))).
Proof.
  intros U R N G F.
  destruct (getitem_in df _ col G) as [_ E].
  rewrite main_eq, U, R, G, (dropna_clean _ F), E.
  destruct (numeric_columns df); [contradiction |]. cbv zeta.
  split.
  - destruct (button ui); cbn [events fst];
      apply in_or_app; right; apply in_or_app; right;
      apply in_or_app; right; [apply in_or_app; left |]; cbn; tauto.
  - intros B. now rewrite B.
Qed.

Lemma clean_column_untouched_witness :
  In (st_pyplot ("Time Series: " ++ "n") [CInt 3; CInt 1; CInt 2])
     (events (main
        (mkEnv (fun _ => inr [mkColumn "n" int64 [CInt 3; CInt 1; CInt 2]])
           (adfuller sample_env) (kpss sample_env)
           (PhillipsPerron sample_env) (range_unit_root_test sample_env))
        (all_tests 0))) /\
  (button (all_tests 0) = true ->
   main (mkEnv (fun _ => inr [mkColumn "n" int64 [CInt 3; CInt 1; CInt 2]])
           (adfuller sample_env) (kpss sample_env)
           (PhillipsPerron sample_env) (range_unit_root_test sample_env))
        (all_tests 0) =
     (page_top ++ preview [mkColumn "n" int64 [CInt 3; CInt 1; CInt 2]] ++
      [selector [mkColumn "n" int64 [CInt 3; CInt 1; CInt 2]]] ++
      controls "n" [CInt 3; CInt 1; CInt 2] ++
      events (run_tests
        (mkEnv (fun _ => inr [mkColumn "n" int64 [CInt 3; CInt 1; CInt 2]])
           (adfuller sample_env) (kpss sample_env)
           (PhillipsPerron sample_env) (range_unit_root_test sample_env))
        (all_tests 0) [CInt 3; CInt 1; CInt 2]),
      outcome (run_tests
        (mkEnv (fun _ => inr [mkColumn "n" int64 [CInt 3; CInt 1; CInt 2]])
           (adfuller sample_env) (kpss sample_env)
           (PhillipsPerron sample_env) (range_unit_root_test sample_env))
        (all_tests 0) [CInt 3; CInt 1; CInt 2]))).
Proof.
  apply (clean_column_untouched
           (mkEnv (fun _ => inr [mkColumn "n" int64 [CInt 3; CInt 1; CInt 2]])
              (adfuller sample_env) (kpss sample_env)
              (PhillipsPerron sample_env) (range_unit_root_test sample_env))
           (all_tests 0) "data.xlsx"
           [mkColumn "n" int64 [CInt 3; CInt 1; CInt 2]]
           (mkColumn "n" int64 [CInt 3; CInt 1; CInt 2])).
  - reflexivity.
  - reflexivity.
  - discriminate.
  - reflexivity.
  - repeat constructor.
Defined.
